(** * Users manager of the JavaScript SDK: [sdks/js/src/managers/user.js]

    The module defines [BaseUsersManager] (validation and delegation to the
    injected [apiClient]) and [UsersManager] (the [async] facade).  The
    embedding below follows the file method by method.

    - JavaScript values are a small inductive type [JsVal].
    - A synchronous call either returns or throws: [Result].
    - A promise is described by how it eventually settles: [Promise].
    - The methods run in the monad [JS], which threads the collaborator's
      private state, the log of collaborator invocations and the number of
      [await] suspensions, and ends in a value, a thrown error, or a
      suspension that never resumes. *)

From Stdlib Require Import String Ascii List ZArith Bool Lia.
Import ListNotations.

Local Open Scope string_scope.
Local Open Scope list_scope.
Set Warnings "-register-all".

(** ** JavaScript values *)

(** Numbers are only passed through by this module (the literals [100] and
    [0] are the only ones it writes), so they are carried as integers.
    [JError m] is the object built by [new Error(m)]; [JTypeError] is the
    [TypeError] raised by the engine itself, whose message is
    engine-specific and therefore left out. *)
Inductive JsVal : Type :=
| JUndefined
| JNull
| JBool (b : bool)
| JNum (n : Z)
| JStr (s : string)
| JArr (items : list JsVal)
| JObj (fields : list (string * JsVal))
| JError (message : string)
| JTypeError.

(** Outcome of a synchronous call. *)
Inductive Result (A : Type) : Type :=
| Returned (a : A)
| Thrown (e : JsVal).
Arguments Returned {A} a.
Arguments Thrown {A} e.

(** A promise, identified with the way it settles; [Pending] is a promise
    that never settles. *)
Inductive Promise : Type :=
| Fulfilled (v : JsVal)
| Rejected (e : JsVal)
| Pending.

(** [Promise.reject(error)] *)
Definition Promise_reject (error : JsVal) : Promise := Rejected error.

(** [p.catch(onRejected)] for a handler that returns a promise: the result
    follows [p] when it is fulfilled or pending and adopts the handler's
    promise when [p] is rejected. *)
Definition catch (p : Promise) (onRejected : JsVal -> Promise) : Promise :=
  match p with
  | Rejected error => onRejected error
  | Fulfilled _ | Pending => p
  end.

(** ** Objects *)

(** The first binding of a key is the one in effect. *)
Fixpoint lookup (key : string) (fields : list (string * JsVal)) : option JsVal :=
  match fields with
  | [] => None
  | (k, v) :: rest => if String.eqb k key then Some v else lookup key rest
  end.

(** Property read [o.key] on a value that is neither [null] nor
    [undefined].  Of the keys read by this module ([name], [about], [docs],
    [limit], [offset], [userId], [items]) none is defined on arrays or
    primitives, and error objects answer [name] only. *)
Definition get_prop (o : JsVal) (key : string) : JsVal :=
  match o with
  | JObj fields =>
      match lookup key fields with
      | Some v => v
      | None => JUndefined
      end
  | JError message =>
      if String.eqb key "name" then JStr "Error"
      else if String.eqb key "message" then JStr message
      else JUndefined
  | JTypeError =>
      if String.eqb key "name" then JStr "TypeError" else JUndefined
  | _ => JUndefined
  end.

(** Default initialiser [x = d] of a parameter or of a destructured
    field: it applies to [undefined] only. *)
Definition default_to (v d : JsVal) : JsVal :=
  match v with
  | JUndefined => d
  | _ => v
  end.

(** ** Identifier validation *)

Definition is_digit (c : ascii) : bool :=
  let n := nat_of_ascii c in (48 <=? n)%nat && (n <=? 57)%nat.

Definition is_hex (c : ascii) : bool :=
  let n := nat_of_ascii c in
  is_digit c
  || ((97 <=? n)%nat && (n <=? 102)%nat)
  || ((65 <=? n)%nat && (n <=? 70)%nat).

Definition is_hyphen (c : ascii) : bool := Ascii.eqb c "-"%char.

Definition is_version4 (c : ascii) : bool := Ascii.eqb c "4"%char.

(** The RFC 4122 variant: the first digit of the fourth group is one of
    8, 9, a, b. *)
Definition is_variant (c : ascii) : bool :=
  Ascii.eqb c "8"%char || Ascii.eqb c "9"%char
  || Ascii.eqb c "a"%char || Ascii.eqb c "b"%char
  || Ascii.eqb c "A"%char || Ascii.eqb c "B"%char.

(** The canonical text form 8-4-4-4-12, one character class per position. *)
Definition uuid4_shape : list (ascii -> bool) :=
  repeat is_hex 8 ++ [is_hyphen]
  ++ repeat is_hex 4 ++ [is_hyphen]
  ++ [is_version4] ++ repeat is_hex 3 ++ [is_hyphen]
  ++ [is_variant] ++ repeat is_hex 3 ++ [is_hyphen]
  ++ repeat is_hex 12.

Fixpoint has_shape (shape : list (ascii -> bool)) (s : string) : bool :=
  match shape, s with
  | [], EmptyString => true
  | cls :: shape', String c s' => cls c && has_shape shape' s'
  | _, _ => false
  end.

(** Modelled from the spec: [isValidUuid4] is imported from [./utils],
    which is not part of the sources at hand.  The spec calls the accepted
    values syntactically valid version-4 unique identifiers: a 128-bit
    identifier rendered in standard hyphenated hexadecimal text form.  A
    value that is not a string is not such a rendering. *)
Definition isValidUuid4 (id : JsVal) : bool :=
  match id with
  | JStr s => has_shape uuid4_shape s
  | _ => false
  end.

(** ** The collaborator *)

(** What a call on [apiClient] did: it returned a promise or it threw. *)
Definition Reply : Type := Result Promise.

(** The interface this module uses of the injected [apiClient]; [St] is
    the collaborator's private state. *)
Record ApiClient (St : Type) : Type := {
  getUser : JsVal -> St -> Reply * St;
  createUser : JsVal -> St -> Reply * St;
  listUsers : JsVal -> JsVal -> St -> Reply * St;
  deleteUser : JsVal -> St -> Reply * St;
  updateUser : JsVal -> JsVal -> St -> Reply * St
}.
Arguments getUser {St} _ _ _.
Arguments createUser {St} _ _ _.
Arguments listUsers {St} _ _ _ _.
Arguments deleteUser {St} _ _ _.
Arguments updateUser {St} _ _ _ _.

(** An invocation of the collaborator, with its arguments. *)
Inductive Call : Type :=
| GetUser (id : JsVal)
| CreateUser (request : JsVal)
| ListUsers (limit offset : JsVal)
| DeleteUser (id : JsVal)
| UpdateUser (id request : JsVal).

(** The failure a collaborator call produced, if any: a thrown error or
    the reason of the rejected promise it returned. *)
Definition failure_of (r : Reply) : option JsVal :=
  match r with
  | Thrown e => Some e
  | Returned (Rejected e) => Some e
  | Returned (Fulfilled _) | Returned Pending => None
  end.

(** ** The execution monad *)

Record World (St : Type) : Type := mkWorld {
  client : St;                    (* private state of the collaborator *)
  trace : list (Call * Reply);    (* invocations so far, oldest first *)
  awaits : nat                    (* suspensions at an [await] so far *)
}.
Arguments mkWorld {St} _ _ _.
Arguments client {St} _.
Arguments trace {St} _.
Arguments awaits {St} _.

Inductive Outcome (A : Type) : Type :=
| Normal (a : A)
| Throw (e : JsVal)
| Suspended.
Arguments Normal {A} a.
Arguments Throw {A} e.
Arguments Suspended {A}.

Definition JS (St A : Type) : Type := World St -> Outcome A * World St.

Definition ret {St A} (a : A) : JS St A := fun w => (Normal a, w).

Definition throw {St A} (e : JsVal) : JS St A := fun w => (Throw e, w).

Definition bind {St A B} (m : JS St A) (k : A -> JS St B) : JS St B :=
  fun w =>
    match m w with
    | (Normal a, w') => k a w'
    | (Throw e, w') => (Throw e, w')
    | (Suspended, w') => (Suspended, w')
    end.

Notation "x <- m ;; k" := (bind m (fun x => k))
  (at level 61, m at next level, right associativity).

Definition lift {St A} (r : Result A) : JS St A :=
  match r with
  | Returned a => ret a
  | Thrown e => throw e
  end.

(** [await p]: the body is suspended, and resumed with the value or the
    thrown reason once [p] settles. *)
Definition await {St} (p : Promise) : JS St JsVal :=
  fun w =>
    let w' := mkWorld (client w) (trace w) (S (awaits w)) in
    match p with
    | Fulfilled v => (Normal v, w')
    | Rejected e => (Throw e, w')
    | Pending => (Suspended, w')
    end.

(** An [async] function: the call itself always returns a promise, which
    settles the way the body ends.  Errors of parameter binding are part
    of the body. *)
Definition async {St} (body : JS St JsVal) : JS St Promise :=
  fun w =>
    match body w with
    | (Normal v, w') => (Normal (Fulfilled v), w')
    | (Throw e, w') => (Normal (Rejected e), w')
    | (Suspended, w') => (Normal Pending, w')
    end.

(** Destructuring a parameter with an object pattern throws a [TypeError]
    on [null] and [undefined]. *)
Definition require_object_coercible {St} (v : JsVal) : JS St JsVal :=
  match v with
  | JUndefined | JNull => throw JTypeError
  | _ => ret v
  end.

(** Member read [v.key]: a [TypeError] on [null] and [undefined]. *)
Definition get_member {St} (v : JsVal) (key : string) : JS St JsVal :=
  match v with
  | JUndefined | JNull => throw JTypeError
  | _ => ret (get_prop v key)
  end.

(** [xs.map(f)] for a callback that may throw: the elements are visited in
    order and the first throw ends the loop. *)
Fixpoint map_result {A B} (f : A -> Result B) (xs : list A) : Result (list B) :=
  match xs with
  | [] => Returned []
  | x :: xs' =>
      match f x with
      | Thrown e => Thrown e
      | Returned y =>
          match map_result f xs' with
          | Thrown e => Thrown e
          | Returned ys => Returned (y :: ys)
          end
      end
  end.

(** [docs.map(callback)]: defined on arrays; on [null] and [undefined] the
    member read fails, on any other value [docs.map] is not a function. *)
Definition array_map {St} (callback : JsVal -> Result JsVal) (docs : JsVal)
  : JS St JsVal :=
  match docs with
  | JArr items =>
      prepared <- lift (map_result callback items) ;;
      ret (JArr prepared)
  | _ => throw JTypeError
  end.

(** A method call [this.apiClient.m(...)], as data: which method runs. *)
Definition dispatch {St} (apiClient : ApiClient St) (c : Call)
  : St -> Reply * St :=
  match c with
  | GetUser id => getUser apiClient id
  | CreateUser request => createUser apiClient request
  | ListUsers limit offset => listUsers apiClient limit offset
  | DeleteUser id => deleteUser apiClient id
  | UpdateUser id request => updateUser apiClient id request
  end.

(** A method call on [this.apiClient]: the collaborator runs, and the
    invocation is appended to the log. *)
Definition invoke {St} (apiClient : ApiClient St) (c : Call) : JS St Promise :=
  fun w =>
    let (reply, st') := dispatch apiClient c (client w) in
    let w' := mkWorld st' (trace w ++ [(c, reply)]) (awaits w) in
    match reply with
    | Returned p => (Normal p, w')
    | Thrown e => (Throw e, w')
    end.

Definition invalid_id : JsVal := JError "id must be a valid UUID v4".

(** ** BaseUsersManager *)

Module BaseUsersManager.
Section Methods.

Context {St : Type}.

(** [this.apiClient], set by the [BaseManager] constructor. *)
Variable apiClient : ApiClient St.

(** The class [CreateDoc] of [../api/serialization/types], which is not
    part of the sources at hand: [new CreateDoc(doc)] yields the prepared
    document or throws. *)
Variable CreateDoc : JsVal -> Result JsVal.

Definition _get (id : JsVal) : JS St Promise :=
  if negb (isValidUuid4 id) then throw invalid_id
  else
    p <- invoke apiClient (GetUser id) ;;
    ret (catch p (fun error => Promise_reject error)).

Definition _create (name about docs : JsVal) : JS St Promise :=
  let docs := default_to docs (JArr []) in
  docsPrepared <- array_map (fun doc => CreateDoc doc) docs ;;
  p <- invoke apiClient (CreateUser (JObj [("name", name); ("about", about);
                                 ("docsPrepared", docsPrepared)])) ;;
  ret (catch p (fun error => Promise_reject error)).

Definition _listItems (limit offset : JsVal) : JS St Promise :=
  p <- invoke apiClient (ListUsers limit offset) ;;
  ret (catch p (fun error => Promise_reject error)).

Definition _delete (userId : JsVal) : JS St Promise :=
  if negb (isValidUuid4 userId) then throw invalid_id
  else
    p <- invoke apiClient (DeleteUser userId) ;;
    ret (catch p (fun error => Promise_reject error)).

Definition _update (userId about name : JsVal) : JS St Promise :=
  if negb (isValidUuid4 userId) then throw invalid_id
  else
    p <- invoke apiClient (UpdateUser userId (JObj [("about", about); ("name", name)])) ;;
    ret (catch p (fun error => Promise_reject error)).

End Methods.
End BaseUsersManager.

(** ** UsersManager *)

Module UsersManager.
Section Methods.

Import BaseUsersManager.

Context {St : Type}.
Variable apiClient : ApiClient St.
Variable CreateDoc : JsVal -> Result JsVal.

Definition get (id : JsVal) : JS St Promise :=
  async (
    p <- _get apiClient id ;;
    await p).

(** [async create({ name, about, docs = [] })] *)
Definition create (arg : JsVal) : JS St Promise :=
  async (
    o <- require_object_coercible arg ;;
    let name := get_prop o "name" in
    let about := get_prop o "about" in
    let docs := default_to (get_prop o "docs") (JArr []) in
    p <- _create apiClient CreateDoc name about docs ;;
    await p).

(** [async list({ limit = 100, offset = 0 } = {})] *)
Definition list (arg : JsVal) : JS St Promise :=
  async (
    o <- require_object_coercible (default_to arg (JObj [])) ;;
    let limit := default_to (get_prop o "limit") (JNum 100) in
    let offset := default_to (get_prop o "offset") (JNum 0) in
    p <- _listItems apiClient limit offset ;;
    response <- await p ;;
    get_member response "items").

Definition delete (userId : JsVal) : JS St Promise :=
  async (
    p <- _delete apiClient userId ;;
    _ <- await p ;;
    ret JNull).

(** [async update({ userId, about, name } = {})] *)
Definition update (arg : JsVal) : JS St Promise :=
  async (
    o <- require_object_coercible (default_to arg (JObj [])) ;;
    let userId := get_prop o "userId" in
    let about := get_prop o "about" in
    let name := get_prop o "name" in
    p <- _update apiClient userId about name ;;
    await p).

End Methods.
End UsersManager.

(** ** Operations as data *)

(** A call of one of the five public methods, with its argument. *)
Inductive Operation : Type :=
| OpGet (id : JsVal)
| OpCreate (arg : JsVal)
| OpList (arg : JsVal)
| OpDelete (userId : JsVal)
| OpUpdate (arg : JsVal).

Definition perform {St} (apiClient : ApiClient St)
    (CreateDoc : JsVal -> Result JsVal) (op : Operation) : JS St Promise :=
  match op with
  | OpGet id => UsersManager.get apiClient id
  | OpCreate arg => UsersManager.create apiClient CreateDoc arg
  | OpList arg => UsersManager.list apiClient arg
  | OpDelete userId => UsersManager.delete apiClient userId
  | OpUpdate arg => UsersManager.update apiClient arg
  end.

(** The collaborator method each public method delegates to. *)
Definition delegates_to (op : Operation) (c : Call) : bool :=
  match op, c with
  | OpGet _, GetUser _ => true
  | OpCreate _, CreateUser _ => true
  | OpList _, ListUsers _ _ => true
  | OpDelete _, DeleteUser _ => true
  | OpUpdate _, UpdateUser _ _ => true
  | _, _ => false
  end.

(** The documents denoted by the [docs] argument of [create]: an array, or
    nothing at all, which stands for the empty array. *)
Definition docs_of (docs : JsVal) : option (list JsVal) :=
  match docs with
  | JUndefined => Some []
  | JArr items => Some items
  | _ => None
  end.

(** How a public method ends once its base method has called the
    collaborator, for a continuation [k] run on the awaited value. *)
Definition settle (reply : Reply) (k : JsVal -> Promise) : Promise :=
  match reply with
  | Returned (Fulfilled v) => k v
  | Returned (Rejected e) => Rejected e
  | Returned Pending => Pending
  | Thrown e => Rejected e
  end.

(** What a run of a public method can look like: either the collaborator
    was not reached and the world is untouched, or it was called once
    and the promise settles from its answer. *)
Inductive run_shape {St : Type} (apiClient : ApiClient St)
    (op : Operation) (w : World St)
  : Outcome Promise * World St -> Prop :=
| no_call (p : Promise) :
    run_shape apiClient op w (Normal p, w)
| one_call (c : Call) (k : JsVal -> Promise) :
    delegates_to op c = true ->
    run_shape apiClient op w
      (Normal (settle (fst (dispatch apiClient c (client w))) k),
       mkWorld (snd (dispatch apiClient c (client w)))
               (trace w ++ [(c, fst (dispatch apiClient c (client w)))])
               (match fst (dispatch apiClient c (client w)) with
                | Returned _ => S (awaits w)
                | Thrown _ => awaits w
                end)).

(** ** Sample collaborators and inputs *)

Definition sample_id : JsVal := JStr "123e4567-e89b-42d3-a456-426614174000".

(** A collaborator that answers every call successfully; its state counts
    the calls it has served. *)
Definition okClient : ApiClient nat := {|
  getUser := fun id n =>
    (Returned (Fulfilled (JObj [("id", id); ("name", JStr "Ada")])), S n);
  createUser := fun request n =>
    (Returned (Fulfilled (JObj [("id", sample_id); ("request", request)])), S n);
  listUsers := fun limit offset n =>
    (Returned (Fulfilled (JObj [("items", JArr [JObj [("name", JStr "Ada")]]);
                                ("limit", limit); ("offset", offset)])), S n);
  deleteUser := fun id n =>
    (Returned (Fulfilled (JObj [("deleted", id)])), S n);
  updateUser := fun id request n =>
    (Returned (Fulfilled (JObj [("id", id); ("request", request)])), S n)
|}.

Definition network_down : JsVal := JError "network down".

(** A collaborator whose promises are all rejected, except for deletion,
    which throws before returning a promise. *)
Definition downClient : ApiClient nat := {|
  getUser := fun _ n => (Returned (Rejected network_down), S n);
  createUser := fun _ n => (Returned (Rejected network_down), S n);
  listUsers := fun _ _ n => (Returned (Rejected network_down), S n);
  deleteUser := fun _ n => (Thrown network_down, S n);
  updateUser := fun _ _ n => (Returned (Rejected network_down), S n)
|}.

(** A [CreateDoc] that wraps the document it is given. *)
Definition wrapDoc (doc : JsVal) : Result JsVal :=
  Returned (JObj [("doc", doc)]).

Definition world0 : World nat := mkWorld 0%nat [] 0%nat.

(** A collaborator whose promises are all fulfilled with the same value. *)
Definition constClient (answer : JsVal) : ApiClient nat := {|
  getUser := fun _ n => (Returned (Fulfilled answer), S n);
  createUser := fun _ n => (Returned (Fulfilled answer), S n);
  listUsers := fun _ _ n => (Returned (Fulfilled answer), S n);
  deleteUser := fun _ n => (Returned (Fulfilled answer), S n);
  updateUser := fun _ _ n => (Returned (Fulfilled answer), S n)
|}.

Definition not_a_document : JsVal := JError "not a document".

(** A [CreateDoc] that accepts plain objects only. *)
Definition strictDoc (doc : JsVal) : Result JsVal :=
  match doc with
  | JObj _ => Returned (JObj [("doc", doc)])
  | _ => Thrown not_a_document
  end.

(** ** Basic facts *)

Example sample_id_valid : isValidUuid4 sample_id = true.
Proof. reflexivity. Qed.

Example uppercase_id_valid :
  isValidUuid4 (JStr "123E4567-E89B-42D3-A456-426614174000") = true.
Proof. reflexivity. Qed.

Example version1_id_invalid :
  isValidUuid4 (JStr "123e4567-e89b-12d3-a456-426614174000") = false.
Proof. reflexivity. Qed.

Example short_id_invalid : isValidUuid4 (JStr "123e4567") = false.
Proof. reflexivity. Qed.

Example unhyphenated_id_invalid :
  isValidUuid4 (JStr "123e4567e89b42d3a456426614174000") = false.
Proof. reflexivity. Qed.

Lemma undefined_is_not_an_id : isValidUuid4 JUndefined = false.
Proof. reflexivity. Qed.

(** [.catch((error) => Promise.reject(error))] changes nothing. *)
Lemma catch_reject (p : Promise) :
  catch p (fun error => Promise_reject error) = p.
Proof. destruct p; reflexivity. Qed.

Lemma map_result_length {A B} (f : A -> Result B) (xs : list A) (ys : list B) :
  map_result f xs = Returned ys -> length ys = length xs.
Proof.
  revert ys; induction xs as [|x xs IH]; intros ys H; simpl in H.
  - injection H as <-. reflexivity.
  - destruct (f x) as [y|e]; [|discriminate].
    destruct (map_result f xs) as [ys'|e]; [|discriminate].
    injection H as <-. simpl. f_equal. apply IH. reflexivity.
Qed.

(** Each prepared document is built from the input document at the same
    position. *)
Lemma map_result_pointwise {A B} (f : A -> Result B) (xs : list A) (ys : list B) :
  map_result f xs = Returned ys ->
  Forall2 (fun x y => f x = Returned y) xs ys.
Proof.
  revert ys; induction xs as [|x xs IH]; intros ys H; simpl in H.
  - injection H as <-. constructor.
  - destruct (f x) as [y|e] eqn:Hfx; [|discriminate].
    destruct (map_result f xs) as [ys'|e]; [|discriminate].
    injection H as <-. constructor; [assumption|].
    apply IH. reflexivity.
Qed.

Lemma trace_not_extended {A} (l : list A) (x : A) : l <> l ++ [x].
Proof.
  intro H. apply (f_equal (@length A)) in H.
  rewrite length_app in H. simpl in H. lia.
Qed.

Section InvokeFacts.

Context {St : Type}.
Variable apiClient : ApiClient St.

(** A method call on the collaborator logs exactly that call and hands
    back what the collaborator answered. *)
Lemma invoke_eq (c : Call) (w : World St) :
  invoke apiClient c w =
    (match fst (dispatch apiClient c (client w)) with
     | Returned p => Normal p
     | Thrown e => Throw e
     end,
     mkWorld (snd (dispatch apiClient c (client w)))
             (trace w ++ [(c, fst (dispatch apiClient c (client w)))])
             (awaits w)).
Proof.
  unfold invoke.
  destruct (dispatch apiClient c (client w)) as [[p|e] st']; reflexivity.
Qed.

End InvokeFacts.

(** ** Properties of the managers *)

Import BaseUsersManager.

(** Unfolds the methods and the monad down to the collaborator's answers. *)
Ltac unfold_methods :=
  unfold perform,
    UsersManager.get, UsersManager.create, UsersManager.list,
    UsersManager.delete, UsersManager.update,
    _get, _create, _listItems, _delete, _update,
    array_map, get_member, require_object_coercible,
    async, await, bind, lift, ret, throw, invoke, dispatch in *.

Section IdentifierCheck.

Context {St : Type}.
Variable apiClient : ApiClient St.

(** The three guarded base methods throw on any value the validator
    refuses, before touching the collaborator. *)
Lemma guarded_base_methods_throw (id about name : JsVal) (w : World St) :
  isValidUuid4 id = false ->
  _get apiClient id w = (Throw invalid_id, w)
  /\ _delete apiClient id w = (Throw invalid_id, w)
  /\ _update apiClient id about name w = (Throw invalid_id, w).
Proof.
  intros H. unfold _get, _delete, _update. rewrite H. simpl. auto.
Qed.

Lemma get_rejects_invalid (id : JsVal) (w : World St) :
  isValidUuid4 id = false ->
  UsersManager.get apiClient id w = (Normal (Rejected invalid_id), w).
Proof. intros H. unfold_methods. rewrite H. reflexivity. Qed.

Lemma delete_rejects_invalid (id : JsVal) (w : World St) :
  isValidUuid4 id = false ->
  UsersManager.delete apiClient id w = (Normal (Rejected invalid_id), w).
Proof. intros H. unfold_methods. rewrite H. reflexivity. Qed.

(** [update] reads the identifier from the key [userId] of its argument;
    a missing key reads as [undefined]. *)
Lemma update_rejects_invalid (fields : list (string * JsVal)) (w : World St) :
  isValidUuid4 (get_prop (JObj fields) "userId") = false ->
  UsersManager.update apiClient (JObj fields) w
  = (Normal (Rejected invalid_id), w).
Proof.
intros H. unfold_methods. cbn [default_to]. cbv beta iota zeta.
rewrite H. reflexivity.
Qed.

(** A string passed in place of the argument object has no [userId]. *)
Lemma update_rejects_bare_string (s : string) (w : World St) :
  UsersManager.update apiClient (JStr s) w
  = (Normal (Rejected invalid_id), w).
Proof. reflexivity. Qed.

End IdentifierCheck.

(** C1. For every string [s] that is not a well-formed version-4 UUID,
    [get], [delete] and [update] fail with the invalid-identifier error and
    the collaborator is not invoked.  The base methods [_get], [_delete]
    and [_update] throw it synchronously; the public [async] methods hand
    it back as the reason of a promise that is rejected without any
    [await] having been reached.  The world is left as it was: no entry is
    added to the invocation log and the collaborator's state is untouched.
    For [update] the string is the [userId] of the argument object. *)
Theorem invalid_string_id_fails_without_collaborator :
  forall (St : Type) (apiClient : ApiClient St) (s : string)
         (about name : JsVal) (fields : list (string * JsVal)) (w : World St),
    isValidUuid4 (JStr s) = false ->
    lookup "userId" fields = Some (JStr s) ->
    _get apiClient (JStr s) w = (Throw invalid_id, w)
    /\ _delete apiClient (JStr s) w = (Throw invalid_id, w)
    /\ _update apiClient (JStr s) about name w = (Throw invalid_id, w)
    /\ UsersManager.get apiClient (JStr s) w = (Normal (Rejected invalid_id), w)
    /\ UsersManager.delete apiClient (JStr s) w = (Normal (Rejected invalid_id), w)
    /\ UsersManager.update apiClient (JObj fields) w
       = (Normal (Rejected invalid_id), w).
Proof.
  intros St api s about name fields w Hs Hf.
  destruct (guarded_base_methods_throw api (JStr s) about name w Hs)
    as (Hg & Hd & Hu).
  repeat split; try assumption.
  - apply get_rejects_invalid, Hs.
  - apply delete_rejects_invalid, Hs.
  - apply update_rejects_invalid. simpl. rewrite Hf. exact Hs.
Qed.

Lemma invalid_string_id_fails_without_collaborator_witness :
  isValidUuid4 (JStr "not-a-uuid") = false
  /\ UsersManager.get okClient (JStr "not-a-uuid") world0
     = (Normal (Rejected invalid_id), world0)
  /\ UsersManager.update okClient
       (JObj [("userId", JStr "not-a-uuid"); ("about", JStr "new bio")]) world0
     = (Normal (Rejected invalid_id), world0).
Proof.
  split; [reflexivity|].
  pose proof (invalid_string_id_fails_without_collaborator nat okClient
    "not-a-uuid" (JStr "new bio") JUndefined
    [("userId", JStr "not-a-uuid"); ("about", JStr "new bio")] world0
    eq_refl eq_refl) as H.
  split; [apply H|apply H].
Defined.

(** C3. For a valid identifier, [get(id)] resolves with exactly the value
    the promise returned by the collaborator's [getUser(id)] is fulfilled
    with; [getUser] is the only collaborator call, made once, with [id]. *)
Theorem get_resolves_with_collaborator_value :
  forall (St : Type) (apiClient : ApiClient St) (id user : JsVal)
         (st' : St) (w : World St),
    isValidUuid4 id = true ->
    getUser apiClient id (client w) = (Returned (Fulfilled user), st') ->
    UsersManager.get apiClient id w
    = (Normal (Fulfilled user),
       mkWorld st'
         (trace w ++ [(GetUser id, Returned (Fulfilled user))])
         (S (awaits w))).
Proof.
  intros St api id user st' w Hid Hreply.
  unfold_methods. rewrite Hid. simpl. rewrite Hreply. reflexivity.
Qed.

Lemma get_resolves_with_collaborator_value_witness :
  UsersManager.get okClient sample_id world0
  = (Normal (Fulfilled (JObj [("id", sample_id); ("name", JStr "Ada")])),
     mkWorld 1%nat
       [(GetUser sample_id,
         Returned (Fulfilled (JObj [("id", sample_id); ("name", JStr "Ada")])))]
       1%nat).
Proof.
  exact (get_resolves_with_collaborator_value nat okClient sample_id
           (JObj [("id", sample_id); ("name", JStr "Ada")]) 1%nat world0
           eq_refl eq_refl).
Defined.

(** C6. For a valid identifier, [delete(id)] resolves with [null] whatever
    value the collaborator's [deleteUser] promise is fulfilled with. *)
Theorem delete_resolves_with_null :
  forall (St : Type) (apiClient : ApiClient St) (id answer : JsVal)
         (st' : St) (w : World St),
    isValidUuid4 id = true ->
    deleteUser apiClient id (client w) = (Returned (Fulfilled answer), st') ->
    UsersManager.delete apiClient id w
    = (Normal (Fulfilled JNull),
       mkWorld st'
         (trace w ++ [(DeleteUser id, Returned (Fulfilled answer))])
         (S (awaits w))).
Proof.
  intros St api id answer st' w Hid Hreply.
  unfold_methods. rewrite Hid. simpl. rewrite Hreply. reflexivity.
Qed.

Lemma delete_resolves_with_null_witness :
  fst (UsersManager.delete okClient sample_id world0) = Normal (Fulfilled JNull)
  /\ deleteUser okClient sample_id 0%nat
     = (Returned (Fulfilled (JObj [("deleted", sample_id)])), 1%nat).
Proof.
  split; [|reflexivity].
  rewrite (delete_resolves_with_null nat okClient sample_id
             (JObj [("deleted", sample_id)]) 1%nat world0 eq_refl eq_refl).
  reflexivity.
Defined.

(** C10. [update()] without an argument binds the parameter to the empty
    object, reads [userId] as [undefined], and is rejected with
    [Error("id must be a valid UUID v4")] before any [await] and without
    invoking the collaborator ([_update] throws it synchronously).  The
    same error, with the same message, is what [get], [delete] and [update]
    fail with for every identifier [id] the validator refuses. *)
Theorem update_without_argument_and_single_message :
  forall (St : Type) (apiClient : ApiClient St) (id about name : JsVal)
         (w : World St),
    isValidUuid4 id = false ->
    let error := JError "id must be a valid UUID v4" in
    (default_to JUndefined (JObj []) = JObj []
     /\ get_prop (JObj []) "userId" = JUndefined
     /\ _update apiClient JUndefined JUndefined JUndefined w = (Throw error, w)
     /\ UsersManager.update apiClient JUndefined w = (Normal (Rejected error), w))
    /\ (_get apiClient id w = (Throw error, w)
        /\ _delete apiClient id w = (Throw error, w)
        /\ _update apiClient id about name w = (Throw error, w))
    /\ (UsersManager.get apiClient id w = (Normal (Rejected error), w)
        /\ UsersManager.delete apiClient id w = (Normal (Rejected error), w)
        /\ UsersManager.update apiClient
             (JObj [("userId", id); ("about", about); ("name", name)]) w
           = (Normal (Rejected error), w)).
Proof.
  intros St api id about name w Hid error.
  split; [|split].
  - repeat split.
  - apply guarded_base_methods_throw, Hid.
  - split; [|split].
    + apply get_rejects_invalid, Hid.
    + apply delete_rejects_invalid, Hid.
    + apply update_rejects_invalid. exact Hid.
Qed.

Lemma update_without_argument_and_single_message_witness :
  isValidUuid4 (JNum 42) = false
  /\ UsersManager.update okClient JUndefined world0
     = (Normal (Rejected (JError "id must be a valid UUID v4")), world0)
  /\ UsersManager.get okClient (JNum 42) world0
     = (Normal (Rejected (JError "id must be a valid UUID v4")), world0).
Proof.
  split; [reflexivity|].
  pose proof (update_without_argument_and_single_message nat okClient
    (JNum 42) JUndefined JUndefined world0 eq_refl) as H.
  split; [apply H|apply H].
Defined.

(** C2, as the code has it.  [update] takes the identifier from the key
    [userId].  With [{userId: validId, about: "new bio"}] and no [name],
    the collaborator's [updateUser] is called once with [validId] and
    [{about: "new bio", name: undefined}], and [update] resolves with the
    value the collaborator's promise is fulfilled with.  An argument that
    carries the identifier under the key [id] has no [userId], and is
    rejected with the invalid-identifier error without any collaborator
    call. *)
Theorem update_forwards_about_without_name :
  forall (St : Type) (apiClient : ApiClient St) (validId response : JsVal)
         (st' : St) (w : World St),
    isValidUuid4 validId = true ->
    let request := JObj [("about", JStr "new bio"); ("name", JUndefined)] in
    updateUser apiClient validId request (client w)
    = (Returned (Fulfilled response), st') ->
    UsersManager.update apiClient
      (JObj [("userId", validId); ("about", JStr "new bio")]) w
    = (Normal (Fulfilled response),
       mkWorld st'
         (trace w ++ [(UpdateUser validId request, Returned (Fulfilled response))])
         (S (awaits w)))
    /\ UsersManager.update apiClient
         (JObj [("id", validId); ("about", JStr "new bio")]) w
       = (Normal (Rejected invalid_id), w).
Proof.
  intros St api validId response st' w Hid request Hreply.
  split.
  - unfold_methods. cbn [default_to get_prop lookup String.eqb Ascii.eqb Bool.eqb].
    cbv beta iota zeta. rewrite Hid. simpl. fold request.
    rewrite Hreply. reflexivity.
  - apply update_rejects_invalid. reflexivity.
Qed.

Lemma update_forwards_about_without_name_witness :
  isValidUuid4 sample_id = true
  /\ fst (UsersManager.update okClient
            (JObj [("userId", sample_id); ("about", JStr "new bio")]) world0)
     = Normal (Fulfilled
         (JObj [("id", sample_id);
                ("request",
                 JObj [("about", JStr "new bio"); ("name", JUndefined)])])).
Proof.
  split; [reflexivity|].
  destruct (update_forwards_about_without_name nat okClient sample_id
    (JObj [("id", sample_id);
           ("request", JObj [("about", JStr "new bio"); ("name", JUndefined)])])
    1%nat world0 eq_refl eq_refl) as [H _].
  rewrite H. reflexivity.
Defined.

(** C2, as the claim words it, fails: with the identifier under the key
    [id], a collaborator that would have answered is never called and
    [update] is rejected instead of resolving with its response. *)
Lemma update_with_id_key_is_rejected :
  let arg := JObj [("id", sample_id); ("about", JStr "new bio")] in
  let request := JObj [("about", JStr "new bio"); ("name", JUndefined)] in
  let response := JObj [("id", sample_id); ("request", request)] in
  isValidUuid4 sample_id = true
  /\ updateUser okClient sample_id request (client world0)
     = (Returned (Fulfilled response), 1%nat)
  /\ UsersManager.update okClient arg world0
     = (Normal (Rejected invalid_id), world0)
  /\ trace (snd (UsersManager.update okClient arg world0)) = []
  /\ fst (UsersManager.update okClient arg world0)
     <> Normal (Fulfilled response).
Proof.
  cbv zeta. repeat split. discriminate.
Qed.

(** C5. [list()] without an argument calls the collaborator's [listUsers]
    once with [limit = 100] and [offset = 0], and resolves with the [items]
    of the envelope the collaborator's promise is fulfilled with; the other
    fields of the envelope are dropped. *)
Theorem list_defaults_and_unwraps_items :
  forall (St : Type) (apiClient : ApiClient St)
         (envelope : list (string * JsVal)) (items : JsVal)
         (st' : St) (w : World St),
    listUsers apiClient (JNum 100) (JNum 0) (client w)
    = (Returned (Fulfilled (JObj envelope)), st') ->
    lookup "items" envelope = Some items ->
    UsersManager.list apiClient JUndefined w
    = (Normal (Fulfilled items),
       mkWorld st'
         (trace w ++ [(ListUsers (JNum 100) (JNum 0),
                       Returned (Fulfilled (JObj envelope)))])
         (S (awaits w))).
Proof.
  intros St api envelope items st' w Hreply Hitems.
  unfold_methods. simpl. rewrite Hreply. simpl. rewrite Hitems. reflexivity.
Qed.

Lemma list_defaults_and_unwraps_items_witness :
  UsersManager.list okClient JUndefined world0
  = (Normal (Fulfilled (JArr [JObj [("name", JStr "Ada")]])),
     mkWorld 1%nat
       [(ListUsers (JNum 100) (JNum 0),
         Returned (Fulfilled
           (JObj [("items", JArr [JObj [("name", JStr "Ada")]]);
                  ("limit", JNum 100); ("offset", JNum 0)])))]
       1%nat).
Proof.
  exact (list_defaults_and_unwraps_items nat okClient
           [("items", JArr [JObj [("name", JStr "Ada")]]);
            ("limit", JNum 100); ("offset", JNum 0)]
           (JArr [JObj [("name", JStr "Ada")]]) 1%nat world0
           eq_refl eq_refl).
Defined.

(** C8. For all values [limit] and [offset], of any kind, [_listItems]
    calls the collaborator's [listUsers] once with exactly these two
    values and hands back what the collaborator answered: its promise, or
    the error it threw.  Nothing is checked locally, so the method throws
    only what the collaborator threw. *)
Theorem listItems_delegates_without_validation :
  forall (St : Type) (apiClient : ApiClient St) (limit offset : JsVal)
         (w : World St),
    let reply := fst (listUsers apiClient limit offset (client w)) in
    let st' := snd (listUsers apiClient limit offset (client w)) in
    _listItems apiClient limit offset w
    = (match reply with
       | Returned p => Normal p
       | Thrown e => Throw e
       end,
       mkWorld st' (trace w ++ [(ListUsers limit offset, reply)]) (awaits w))
    /\ (forall e, fst (_listItems apiClient limit offset w) = Throw e ->
                  reply = Thrown e).
Proof.
  intros St api limit offset w reply st'.
  assert (H : _listItems api limit offset w
              = (match reply with
                 | Returned p => Normal p
                 | Thrown e => Throw e
                 end,
                 mkWorld st' (trace w ++ [(ListUsers limit offset, reply)])
                         (awaits w))).
  { unfold _listItems, bind. rewrite invoke_eq. simpl dispatch.
    fold reply st'. destruct reply as [p|e]; [|reflexivity].
    unfold ret. rewrite catch_reject. reflexivity. }
  split; [exact H|].
  intros e He. rewrite H in He. simpl in He.
  destruct reply as [p|e']; [discriminate|].
  injection He as ->. reflexivity.
Qed.

Lemma listItems_delegates_without_validation_witness :
  _listItems okClient (JStr "many") (JNum (-5)) world0
  = (Normal (Fulfilled (JObj [("items", JArr [JObj [("name", JStr "Ada")]]);
                              ("limit", JStr "many"); ("offset", JNum (-5))])),
     mkWorld 1%nat
       [(ListUsers (JStr "many") (JNum (-5)),
         Returned (Fulfilled
           (JObj [("items", JArr [JObj [("name", JStr "Ada")]]);
                  ("limit", JStr "many"); ("offset", JNum (-5))])))]
       0%nat).
Proof.
  exact (proj1 (listItems_delegates_without_validation nat okClient
                  (JStr "many") (JNum (-5)) world0)).
Defined.

(** C4. [create({name, about, docs})] passes every element of [docs]
    through [new CreateDoc(doc)], calls the collaborator's [createUser]
    once with [{name, about, docsPrepared}], where [docsPrepared] holds
    one prepared document per input document, in the same order, and
    resolves with the value the collaborator's promise is fulfilled with.
    A [docs] that is left out stands for the empty array. *)
Theorem create_prepares_docs_and_delegates :
  forall (St : Type) (apiClient : ApiClient St)
         (CreateDoc : JsVal -> Result JsVal)
         (fields : list (string * JsVal)) (docs prepared : list JsVal)
         (response : JsVal) (st' : St) (w : World St),
    let name := get_prop (JObj fields) "name" in
    let about := get_prop (JObj fields) "about" in
    let request := JObj [("name", name); ("about", about);
                         ("docsPrepared", JArr prepared)] in
    docs_of (get_prop (JObj fields) "docs") = Some docs ->
    map_result CreateDoc docs = Returned prepared ->
    createUser apiClient request (client w)
    = (Returned (Fulfilled response), st') ->
    UsersManager.create apiClient CreateDoc (JObj fields) w
    = (Normal (Fulfilled response),
       mkWorld st'
         (trace w ++ [(CreateUser request, Returned (Fulfilled response))])
         (S (awaits w)))
    /\ length prepared = length docs
    /\ Forall2 (fun doc p => CreateDoc doc = Returned p) docs prepared.
Proof.
  intros St api CreateDoc fields docs prepared response st' w
         name about request Hdocs Hmap Hreply.
  split; [|split].
  - unfold_methods. cbv beta iota zeta. fold name about.
    assert (Hd : default_to (default_to (get_prop (JObj fields) "docs") (JArr []))
                   (JArr []) = JArr docs).
    { destruct (get_prop (JObj fields) "docs"); simpl in Hdocs;
        try discriminate; injection Hdocs as <-; reflexivity. }
    rewrite Hd.
    change (map_result (fun doc => CreateDoc doc) docs)
      with (map_result CreateDoc docs).
    rewrite Hmap. fold request. rewrite Hreply. reflexivity.
  - eapply map_result_length; eassumption.
  - apply map_result_pointwise; assumption.
Qed.

Lemma create_prepares_docs_and_delegates_witness :
  let request :=
    JObj [("name", JStr "Ada"); ("about", JStr "x");
          ("docsPrepared", JArr [JObj [("doc", JObj [("title", JStr "d1")])]])] in
  let response := JObj [("id", sample_id); ("request", request)] in
  UsersManager.create okClient wrapDoc
    (JObj [("name", JStr "Ada"); ("about", JStr "x");
           ("docs", JArr [JObj [("title", JStr "d1")]])]) world0
  = (Normal (Fulfilled response),
     mkWorld 1%nat [(CreateUser request, Returned (Fulfilled response))] 1%nat).
Proof.
  exact (proj1 (create_prepares_docs_and_delegates nat okClient wrapDoc
    [("name", JStr "Ada"); ("about", JStr "x");
     ("docs", JArr [JObj [("title", JStr "d1")]])]
    [JObj [("title", JStr "d1")]]
    [JObj [("doc", JObj [("title", JStr "d1")])]]
    (JObj [("id", sample_id);
           ("request",
            JObj [("name", JStr "Ada"); ("about", JStr "x");
                  ("docsPrepared",
                   JArr [JObj [("doc", JObj [("title", JStr "d1")])]])])])
    1%nat world0 eq_refl eq_refl eq_refl)).
Defined.

(** With [docs] left out the collaborator receives an empty
    [docsPrepared]. *)
Example create_without_docs :
  trace (snd (UsersManager.create okClient wrapDoc
                (JObj [("name", JStr "Ada"); ("about", JStr "x")]) world0))
  = [(CreateUser (JObj [("name", JStr "Ada"); ("about", JStr "x");
                        ("docsPrepared", JArr [])]),
      Returned (Fulfilled
        (JObj [("id", sample_id);
               ("request",
                JObj [("name", JStr "Ada"); ("about", JStr "x");
                      ("docsPrepared", JArr [])])])))].
Proof. reflexivity. Qed.

(** C9, as the claim words it, fails: [docs: null] is not replaced by the
    default (defaults apply to [undefined] only), [null.map] raises a
    [TypeError], and [createUser] is not invoked. *)
Lemma create_with_null_docs_makes_no_call :
  let arg := JObj [("name", JStr "Ada"); ("about", JStr "x"); ("docs", JNull)] in
  UsersManager.create okClient wrapDoc arg world0
  = (Normal (Rejected JTypeError), world0)
  /\ trace (snd (UsersManager.create okClient wrapDoc arg world0)) = []
  /\ length (trace (snd (UsersManager.create okClient wrapDoc arg world0))) <> 1%nat.
Proof.
  cbv zeta. repeat split. discriminate.
Qed.

(** C9, as the code has it.  [create] checks no identifier and no field,
    and has no error of its own.  Whenever [docs] is left out or is an
    array whose elements [CreateDoc] accepts, whatever [name] and [about]
    are, [createUser] is invoked exactly once and [create] settles the way
    the collaborator answered.  Otherwise the collaborator is not invoked:
    a [docs] that is neither (such as [null]) and a [null] or missing
    argument object end in the engine's [TypeError], and an error thrown
    by [CreateDoc] is handed on as it is. *)
Theorem create_has_no_validation_of_its_own :
  forall (St : Type) (apiClient : ApiClient St)
         (CreateDoc : JsVal -> Result JsVal) (arg : JsVal) (w : World St),
    let run := UsersManager.create apiClient CreateDoc arg w in
    match arg with
    | JUndefined | JNull => run = (Normal (Rejected JTypeError), w)
    | _ =>
        match docs_of (get_prop arg "docs") with
        | None => run = (Normal (Rejected JTypeError), w)
        | Some docs =>
            match map_result CreateDoc docs with
            | Thrown e => run = (Normal (Rejected e), w)
            | Returned prepared =>
                let request :=
                  JObj [("name", get_prop arg "name");
                        ("about", get_prop arg "about");
                        ("docsPrepared", JArr prepared)] in
                let reply := fst (createUser apiClient request (client w)) in
                trace (snd run) = trace w ++ [(CreateUser request, reply)]
                /\ fst run
                   = Normal (match reply with
                             | Returned p => p
                             | Thrown e => Rejected e
                             end)
            end
        end
    end.
Proof.
  intros St api CreateDoc arg w run.
  assert (Hgen : forall o,
    match docs_of (get_prop o "docs") with
    | None =>
        async (p <- _create api CreateDoc (get_prop o "name") (get_prop o "about")
                      (default_to (get_prop o "docs") (JArr [])) ;;
               await p) w
        = (Normal (Rejected JTypeError), w)
    | Some docs =>
        match map_result CreateDoc docs with
        | Thrown e =>
            async (p <- _create api CreateDoc (get_prop o "name")
                          (get_prop o "about")
                          (default_to (get_prop o "docs") (JArr [])) ;;
                   await p) w
            = (Normal (Rejected e), w)
        | Returned prepared =>
            let request :=
              JObj [("name", get_prop o "name"); ("about", get_prop o "about");
                    ("docsPrepared", JArr prepared)] in
            let reply := fst (createUser api request (client w)) in
            let r := async (p <- _create api CreateDoc (get_prop o "name")
                                   (get_prop o "about")
                                   (default_to (get_prop o "docs") (JArr [])) ;;
                            await p) w in
            trace (snd r) = trace w ++ [(CreateUser request, reply)]
            /\ fst r = Normal (match reply with
                               | Returned p => p
                               | Thrown e => Rejected e
                               end)
        end
    end).
  { intros o.
    assert (Hcall : forall items,
      match map_result CreateDoc items with
      | Thrown e =>
          async (p <- _create api CreateDoc (get_prop o "name")
                        (get_prop o "about") (JArr items) ;;
                 await p) w
          = (Normal (Rejected e), w)
      | Returned prepared =>
          let request :=
            JObj [("name", get_prop o "name"); ("about", get_prop o "about");
                  ("docsPrepared", JArr prepared)] in
          let reply := fst (createUser api request (client w)) in
          let r := async (p <- _create api CreateDoc (get_prop o "name")
                                 (get_prop o "about") (JArr items) ;;
                          await p) w in
          trace (snd r) = trace w ++ [(CreateUser request, reply)]
          /\ fst r = Normal (match reply with
                             | Returned p => p
                             | Thrown e => Rejected e
                             end)
      end).
    { intros items. unfold_methods. cbn [default_to].
      change (map_result (fun doc => CreateDoc doc) items)
        with (map_result CreateDoc items).
      destruct (map_result CreateDoc items) as [prepared|e]; [|reflexivity].
      cbv zeta.
      destruct (createUser api _ (client w)) as [[[v|e|]|e] st'];
        simpl; split; reflexivity. }
    destruct (get_prop o "docs") as [| |b|n|s|items|fs|m|]; simpl docs_of;
      cbn [default_to]; try reflexivity.
    - exact (Hcall []).
    - exact (Hcall items). }
  subst run.
  destruct arg as [| |b|n|s|items|fs|m|]; try reflexivity.
  - exact (Hgen (JBool b)).
  - exact (Hgen (JNum n)).
  - exact (Hgen (JStr s)).
  - exact (Hgen (JArr items)).
  - exact (Hgen (JObj fs)).
  - exact (Hgen (JError m)).
  - exact (Hgen JTypeError).
Qed.

Section Failures.

Context {St : Type}.
Variable apiClient : ApiClient St.
Variable CreateDoc : JsVal -> Result JsVal.

Lemma one_call_intro (op : Operation) (w : World St) (c : Call)
    (k : JsVal -> Promise) (r : Outcome Promise * World St) :
  delegates_to op c = true ->
  r = (Normal (settle (fst (dispatch apiClient c (client w))) k),
       mkWorld (snd (dispatch apiClient c (client w)))
               (trace w ++ [(c, fst (dispatch apiClient c (client w)))])
               (match fst (dispatch apiClient c (client w)) with
                | Returned _ => S (awaits w)
                | Thrown _ => awaits w
                end)) ->
  run_shape apiClient op w r.
Proof. intros Hd ->. apply one_call, Hd. Qed.

(** An [async] body that starts with a step [m] goes on as an [async]
    body once [m] is done. *)
Lemma async_bind {A} (m : JS St A) (k : A -> JS St JsVal) (w : World St) :
  async (x <- m ;; k x) w
  = match m w with
    | (Normal a, w') => async (k a) w'
    | (Throw e, w') => (Normal (Rejected e), w')
    | (Suspended, w') => (Normal Pending, w')
    end.
Proof.
  unfold async, bind. destruct (m w) as [[a|e|] w']; reflexivity.
Qed.

(** The tail shared by the five public methods: call, [.catch], [await],
    then a continuation that leaves the world alone. *)
Lemma call_then_await (c : Call) (k : JsVal -> JS St JsVal)
    (k' : JsVal -> Promise) (w : World St) :
  (forall v w1, async (k v) w1 = (Normal (k' v), w1)) ->
  async (p <- (p0 <- invoke apiClient c ;;
               ret (catch p0 (fun error => Promise_reject error))) ;;
         v <- await p ;;
         k v) w
  = (Normal (settle (fst (dispatch apiClient c (client w))) k'),
     mkWorld (snd (dispatch apiClient c (client w)))
             (trace w ++ [(c, fst (dispatch apiClient c (client w)))])
             (match fst (dispatch apiClient c (client w)) with
              | Returned _ => S (awaits w)
              | Thrown _ => awaits w
              end)).
Proof.
  intros Hk. rewrite async_bind. unfold bind at 1. rewrite invoke_eq.
  destruct (dispatch apiClient c (client w)) as [[p|e] st']; simpl;
    [|reflexivity].
  unfold ret. rewrite catch_reject, async_bind.
  destruct p as [v|e|]; simpl; try reflexivity.
  apply Hk.
Qed.

Lemma call_and_await (c : Call) (w : World St) :
  async (p <- (p0 <- invoke apiClient c ;;
               ret (catch p0 (fun error => Promise_reject error))) ;;
         await p) w
  = (Normal (settle (fst (dispatch apiClient c (client w))) Fulfilled),
     mkWorld (snd (dispatch apiClient c (client w)))
             (trace w ++ [(c, fst (dispatch apiClient c (client w)))])
             (match fst (dispatch apiClient c (client w)) with
              | Returned _ => S (awaits w)
              | Thrown _ => awaits w
              end)).
Proof.
  rewrite async_bind. unfold bind at 1. rewrite invoke_eq.
  destruct (dispatch apiClient c (client w)) as [[p|e] st']; simpl;
    [|reflexivity].
  unfold ret. rewrite catch_reject.
  destruct p as [v|e|]; reflexivity.
Qed.

Lemma no_call_intro (op : Operation) (w : World St) (p : Promise)
    (r : Outcome Promise * World St) :
  r = (Normal p, w) -> run_shape apiClient op w r.
Proof. intros ->. apply no_call. Qed.

(** [docs.map(...)] does not touch the world and does not suspend. *)
Lemma array_map_pure (callback : JsVal -> Result JsVal) (docs : JsVal) :
  (exists prepared, forall w : World St,
      array_map callback docs w = (Normal (JArr prepared), w))
  \/ (exists e, forall w : World St, array_map callback docs w = (Throw e, w)).
Proof.
  destruct docs as [| |b|n|s|items|fs|m|];
    try (right; exists JTypeError; reflexivity).
  unfold array_map, bind, lift.
  destruct (map_result callback items) as [prepared|e].
  - left. exists prepared. reflexivity.
  - right. exists e. reflexivity.
Qed.

Lemma get_run_shape (id : JsVal) (w : World St) :
  run_shape apiClient (OpGet id) w (UsersManager.get apiClient id w).
Proof.
  unfold UsersManager.get, _get.
  destruct (isValidUuid4 id); simpl negb; cbv iota.
  - apply one_call_intro with (c := GetUser id) (k := Fulfilled);
      [reflexivity|apply call_and_await].
  - eapply no_call_intro. reflexivity.
Qed.

Lemma delete_run_shape (userId : JsVal) (w : World St) :
  run_shape apiClient (OpDelete userId) w (UsersManager.delete apiClient userId w).
Proof.
  unfold UsersManager.delete, _delete.
  destruct (isValidUuid4 userId); simpl negb; cbv iota.
  - apply one_call_intro
      with (c := DeleteUser userId) (k := fun _ => Fulfilled JNull);
      [reflexivity|].
    apply call_then_await. reflexivity.
  - eapply no_call_intro. reflexivity.
Qed.

Lemma update_run_shape (arg : JsVal) (w : World St) :
  run_shape apiClient (OpUpdate arg) w (UsersManager.update apiClient arg w).
Proof.
  assert (Hgen : forall o,
    run_shape apiClient (OpUpdate arg) w
      (async (p <- _update apiClient (get_prop o "userId")
                     (get_prop o "about") (get_prop o "name") ;;
              await p) w)).
  { intros o. unfold _update.
    destruct (isValidUuid4 (get_prop o "userId")); simpl negb; cbv iota.
    - eapply one_call_intro with (k := Fulfilled);
        [|apply call_and_await]. reflexivity.
    - eapply no_call_intro. reflexivity. }
  destruct arg as [| |b|n|s|items|fs|m|].
  - exact (Hgen (JObj [])).
  - eapply no_call_intro. reflexivity.
  - exact (Hgen (JBool b)).
  - exact (Hgen (JNum n)).
  - exact (Hgen (JStr s)).
  - exact (Hgen (JArr items)).
  - exact (Hgen (JObj fs)).
  - exact (Hgen (JError m)).
  - exact (Hgen JTypeError).
Qed.

Lemma list_run_shape (arg : JsVal) (w : World St) :
  run_shape apiClient (OpList arg) w (UsersManager.list apiClient arg w).
Proof.
  assert (Hgen : forall o,
    run_shape apiClient (OpList arg) w
      (async (p <- _listItems apiClient
                     (default_to (get_prop o "limit") (JNum 100))
                     (default_to (get_prop o "offset") (JNum 0)) ;;
              response <- await p ;;
              get_member response "items") w)).
  { intros o. unfold _listItems.
    eapply one_call_intro
      with (k := fun response =>
                   match response with
                   | JUndefined | JNull => Rejected JTypeError
                   | _ => Fulfilled (get_prop response "items")
                   end);
      [|apply call_then_await]; [reflexivity|].
    intros v w1. destruct v; reflexivity. }
  destruct arg as [| |b|n|s|items|fs|m|].
  - exact (Hgen (JObj [])).
  - eapply no_call_intro. reflexivity.
  - exact (Hgen (JBool b)).
  - exact (Hgen (JNum n)).
  - exact (Hgen (JStr s)).
  - exact (Hgen (JArr items)).
  - exact (Hgen (JObj fs)).
  - exact (Hgen (JError m)).
  - exact (Hgen JTypeError).
Qed.

Lemma create_run_shape (arg : JsVal) (w : World St) :
  run_shape apiClient (OpCreate arg) w (UsersManager.create apiClient CreateDoc arg w).
Proof.
  assert (Hgen : forall o,
    run_shape apiClient (OpCreate arg) w
      (async (p <- _create apiClient CreateDoc (get_prop o "name")
                     (get_prop o "about")
                     (default_to (get_prop o "docs") (JArr [])) ;;
              await p) w)).
  { intros o. unfold _create.
    destruct (array_map_pure (fun doc => CreateDoc doc)
                (default_to (default_to (get_prop o "docs") (JArr []))
                   (JArr [])))
      as [[prepared Hp]|[e He]].
    - apply one_call_intro
        with (c := CreateUser (JObj [("name", get_prop o "name");
                                     ("about", get_prop o "about");
                                     ("docsPrepared", JArr prepared)]))
             (k := Fulfilled);
        [reflexivity|].
      rewrite <- call_and_await.
      unfold async, bind. rewrite Hp. reflexivity.
    - eapply no_call_intro with (p := Rejected e).
      unfold async, bind. rewrite He. reflexivity. }
  destruct arg as [| |b|n|s|items|fs|m|].
  - eapply no_call_intro. reflexivity.
  - eapply no_call_intro. reflexivity.
  - exact (Hgen (JBool b)).
  - exact (Hgen (JNum n)).
  - exact (Hgen (JStr s)).
  - exact (Hgen (JArr items)).
  - exact (Hgen (JObj fs)).
  - exact (Hgen (JError m)).
  - exact (Hgen JTypeError).
Qed.

(** Every run of a public method has one of the two shapes. *)
Lemma perform_run_shape (op : Operation) (w : World St) :
  run_shape apiClient op w (perform apiClient CreateDoc op w).
Proof.
  destruct op; simpl.
  - apply get_run_shape.
  - apply create_run_shape.
  - apply list_run_shape.
  - apply delete_run_shape.
  - apply update_run_shape.
Qed.

(** No method calls the collaborator a second time. *)
Lemma perform_calls_at_most_once (op : Operation) (w : World St) :
  exists calls,
    trace (snd (perform apiClient CreateDoc op w)) = trace w ++ calls
    /\ (length calls <= 1)%nat.
Proof.
  destruct (perform_run_shape op w) as [p|c k Hd]; simpl.
  - exists []. rewrite app_nil_r. split; [reflexivity|simpl; lia].
  - eexists. split; [reflexivity|simpl; lia].
Qed.

End Failures.

(** A failed collaborator call settles the method's promise as rejected
    with the failure, whatever would have been done with a value. *)
Lemma settle_failure (reply : Reply) (k : JsVal -> Promise) (e : JsVal) :
  failure_of reply = Some e -> settle reply k = Rejected e.
Proof.
  destruct reply as [[v|e'|]|e']; simpl; intros H; try discriminate;
    injection H as ->; reflexivity.
Qed.

(** C7. For each of [get], [create], [list], [delete] and [update], on
    every input with which the method reaches its collaborator operation:
    when the collaborator's answer to that call is a failure [e] (the
    promise it returns is rejected with [e], or the call throws [e]), the
    method's promise is rejected with exactly [e].  The run logs that one
    call and no other, and leaves the collaborator in the state that call
    left: nothing is retried, translated or swallowed. *)
Theorem collaborator_failure_is_propagated :
  forall (St : Type) (apiClient : ApiClient St)
         (CreateDoc : JsVal -> Result JsVal) (e : JsVal) (w : World St),
    let rejected_after :=
      fun (run : Outcome Promise * World St) (c : Call) =>
        fst run = Normal (Rejected e)
        /\ trace (snd run)
           = trace w ++ [(c, fst (dispatch apiClient c (client w)))]
        /\ client (snd run) = snd (dispatch apiClient c (client w)) in
    (forall id,
        isValidUuid4 id = true ->
        failure_of (fst (getUser apiClient id (client w))) = Some e ->
        rejected_after (UsersManager.get apiClient id w) (GetUser id))
    /\ (forall arg docs prepared,
          arg <> JUndefined -> arg <> JNull ->
          docs_of (get_prop arg "docs") = Some docs ->
          map_result CreateDoc docs = Returned prepared ->
          let request := JObj [("name", get_prop arg "name");
                               ("about", get_prop arg "about");
                               ("docsPrepared", JArr prepared)] in
          failure_of (fst (createUser apiClient request (client w))) = Some e ->
          rejected_after (UsersManager.create apiClient CreateDoc arg w)
                         (CreateUser request))
    /\ (forall arg,
          arg <> JNull ->
          let limit := default_to (get_prop arg "limit") (JNum 100) in
          let offset := default_to (get_prop arg "offset") (JNum 0) in
          failure_of (fst (listUsers apiClient limit offset (client w)))
          = Some e ->
          rejected_after (UsersManager.list apiClient arg w)
                         (ListUsers limit offset))
    /\ (forall userId,
          isValidUuid4 userId = true ->
          failure_of (fst (deleteUser apiClient userId (client w))) = Some e ->
          rejected_after (UsersManager.delete apiClient userId w)
                         (DeleteUser userId))
    /\ (forall arg,
          let userId := get_prop arg "userId" in
          let request := JObj [("about", get_prop arg "about");
                               ("name", get_prop arg "name")] in
          isValidUuid4 userId = true ->
          failure_of (fst (updateUser apiClient userId request (client w)))
          = Some e ->
          rejected_after (UsersManager.update apiClient arg w)
                         (UpdateUser userId request)).
Proof.
  intros St api CreateDoc e w rejected_after. subst rejected_after.
  cbv beta.
  split; [|split; [|split; [|split]]].
  - intros id Hid Hfail.
    unfold UsersManager.get, _get. rewrite Hid. cbn [negb]. cbv beta iota.
    rewrite call_and_await. simpl fst. simpl snd. simpl dispatch.
    rewrite (settle_failure _ _ _ Hfail). auto.
  - intros arg docs prepared Hundef Hnull Hdocs Hmap request Hfail.
    assert (Hd : default_to (default_to (get_prop arg "docs") (JArr []))
                   (JArr []) = JArr docs).
    { destruct (get_prop arg "docs"); simpl in Hdocs;
        try discriminate; injection Hdocs as <-; reflexivity. }
    assert (Hrun : UsersManager.create api CreateDoc arg w
                   = async (p <- (p0 <- invoke api (CreateUser request) ;;
                                  ret (catch p0 (fun error => Promise_reject error))) ;;
                            await p) w).
    { assert (Hbody : UsersManager.create api CreateDoc arg w
                      = async (p <- _create api CreateDoc (get_prop arg "name")
                                      (get_prop arg "about")
                                      (default_to (get_prop arg "docs") (JArr [])) ;;
                               await p) w)
        by (destruct arg; try reflexivity; contradiction).
      rewrite Hbody. unfold _create. rewrite Hd.
      unfold array_map, lift, async, bind.
      change (map_result (fun doc => CreateDoc doc) docs)
        with (map_result CreateDoc docs).
      rewrite Hmap. reflexivity. }
    rewrite Hrun, call_and_await. simpl fst. simpl snd. simpl dispatch.
    rewrite (settle_failure _ _ _ Hfail). auto.
  - intros arg Hnull limit offset Hfail.
    assert (Hrun : UsersManager.list api arg w
                   = async (p <- _listItems api limit offset ;;
                            response <- await p ;;
                            get_member response "items") w)
      by (destruct arg; try reflexivity; contradiction).
    rewrite Hrun. unfold _listItems.
    rewrite (call_then_await api (ListUsers limit offset)
               (fun response => get_member response "items")
               (fun response =>
                  match response with
                  | JUndefined | JNull => Rejected JTypeError
                  | _ => Fulfilled (get_prop response "items")
                  end))
      by (intros v w1; destruct v; reflexivity).
    simpl fst. simpl snd. simpl dispatch.
    rewrite (settle_failure _ _ _ Hfail). auto.
  - intros userId Hid Hfail.
    unfold UsersManager.delete, _delete. rewrite Hid. cbn [negb].
    cbv beta iota.
    rewrite (call_then_await api (DeleteUser userId) (fun _ => ret JNull)
               (fun _ => Fulfilled JNull)) by reflexivity.
    simpl fst. simpl snd. simpl dispatch.
    rewrite (settle_failure _ _ _ Hfail). auto.
  - intros arg userId request Hid Hfail.
    assert (Hrun : UsersManager.update api arg w
                   = async (p <- _update api userId (get_prop arg "about")
                                   (get_prop arg "name") ;;
                            await p) w).
    { destruct arg; try reflexivity; discriminate Hid. }
    rewrite Hrun. unfold _update. rewrite Hid. cbn [negb]. cbv beta iota.
    rewrite call_and_await. simpl fst. simpl snd. simpl dispatch.
    fold request. rewrite (settle_failure _ _ _ Hfail). auto.
Qed.

Lemma collaborator_failure_is_propagated_witness :
  fst (UsersManager.get downClient sample_id world0)
  = Normal (Rejected network_down)
  /\ fst (UsersManager.create downClient wrapDoc
            (JObj [("name", JStr "Ada"); ("about", JStr "x")]) world0)
     = Normal (Rejected network_down)
  /\ fst (UsersManager.list downClient JUndefined world0)
     = Normal (Rejected network_down)
  /\ fst (UsersManager.delete downClient sample_id world0)
     = Normal (Rejected network_down)
  /\ fst (UsersManager.update downClient
            (JObj [("userId", sample_id); ("name", JStr "Ada")]) world0)
     = Normal (Rejected network_down).
Proof.
  destruct (collaborator_failure_is_propagated nat downClient wrapDoc
              network_down world0) as (Hget & Hcreate & Hlist & Hdelete & Hupdate).
  split; [|split; [|split; [|split]]].
  - exact (proj1 (Hget sample_id eq_refl eq_refl)).
  - refine (proj1 (Hcreate (JObj [("name", JStr "Ada"); ("about", JStr "x")])
                     [] [] _ _ eq_refl eq_refl eq_refl)); discriminate.
  - refine (proj1 (Hlist JUndefined _ eq_refl)); discriminate.
  - exact (proj1 (Hdelete sample_id eq_refl eq_refl)).
  - exact (proj1 (Hupdate (JObj [("userId", sample_id); ("name", JStr "Ada")])
                    eq_refl eq_refl)).
Defined.

(** The five methods against a collaborator that is down. *)
Example all_methods_forward_the_failure :
  map (fun op => fst (perform downClient wrapDoc op world0))
      [OpGet sample_id;
       OpCreate (JObj [("name", JStr "Ada"); ("about", JStr "x")]);
       OpList JUndefined;
       OpDelete sample_id;
       OpUpdate (JObj [("userId", sample_id); ("name", JStr "Ada")])]
  = repeat (Normal (Rejected network_down)) 5.
Proof. reflexivity. Qed.

(** ** Further properties of the two managers *)

(** What the promise of a [return await ...] method is, given what the
    collaborator call did. *)
Lemma settle_fulfilled (reply : Reply) :
  settle reply Fulfilled
  = match reply with
    | Returned p => p
    | Thrown e => Rejected e
    end.
Proof. destruct reply as [[v|e|]|e]; reflexivity. Qed.

(** [docs.map] stops at the first document the constructor refuses. *)
Lemma map_result_first_throw {A B} (f : A -> Result B)
    (before : list A) (x : A) (after : list A) (e : JsVal) :
  Forall (fun a => exists b, f a = Returned b) before ->
  f x = Thrown e ->
  map_result f (before ++ x :: after) = Thrown e.
Proof.
  intros Hbefore Hx. induction Hbefore as [|a before [b Hb] _ IH]; simpl.
  - rewrite Hx. reflexivity.
  - rewrite Hb, IH. reflexivity.
Qed.

(** X1. For a valid identifier, [get] makes the single call [getUser(id)]
    and its promise is the collaborator's own: fulfilled, rejected or
    never settled exactly as that one, and rejected with the error when the
    call threw.  The collaborator's state is the one that call left. *)
Theorem get_settles_as_collaborator :
  forall (St : Type) (apiClient : ApiClient St) (id : JsVal) (w : World St),
    isValidUuid4 id = true ->
    let reply := fst (getUser apiClient id (client w)) in
    let run := UsersManager.get apiClient id w in
    fst run = Normal (match reply with
                      | Returned p => p
                      | Thrown e => Rejected e
                      end)
    /\ trace (snd run) = trace w ++ [(GetUser id, reply)]
    /\ client (snd run) = snd (getUser apiClient id (client w)).
Proof.
  intros St api id w Hid reply run. subst run.
  unfold UsersManager.get, _get. rewrite Hid. simpl negb. cbv iota.
  rewrite call_and_await, settle_fulfilled. simpl. auto.
Qed.

Lemma get_settles_as_collaborator_witness :
  fst (UsersManager.get downClient sample_id world0)
  = Normal (Rejected network_down)
  /\ trace (snd (UsersManager.get downClient sample_id world0))
     = [(GetUser sample_id, Returned (Rejected network_down))].
Proof.
  pose proof (get_settles_as_collaborator nat downClient sample_id world0
                eq_refl) as H.
  split; apply H.
Defined.

(** X2. The guarded methods reach the collaborator exactly when the
    identifier is valid: [get], [delete] and [update] add one entry to the
    invocation log for a valid identifier and none otherwise. *)
Theorem guarded_methods_call_count :
  forall (St : Type) (apiClient : ApiClient St)
         (id : JsVal) (fields : list (string * JsVal)) (w : World St),
    let calls := fun valid : bool => if valid then 1%nat else 0%nat in
    length (trace (snd (UsersManager.get apiClient id w)))
    = (length (trace w) + calls (isValidUuid4 id))%nat
    /\ length (trace (snd (UsersManager.delete apiClient id w)))
       = (length (trace w) + calls (isValidUuid4 id))%nat
    /\ length (trace (snd (UsersManager.update apiClient (JObj fields) w)))
       = (length (trace w)
          + calls (isValidUuid4 (get_prop (JObj fields) "userId")))%nat.
Proof.
  intros St api id fields w calls. subst calls.
  split; [|split].
  - unfold UsersManager.get, _get.
    destruct (isValidUuid4 id); simpl negb; cbv iota.
    + rewrite call_and_await. simpl. rewrite length_app. reflexivity.
    + simpl. lia.
  - unfold UsersManager.delete, _delete.
    destruct (isValidUuid4 id); simpl negb; cbv iota.
    + rewrite (call_then_await api (DeleteUser id) (fun _ => ret JNull)
                 (fun _ => Fulfilled JNull)) by reflexivity.
      simpl. rewrite length_app. reflexivity.
    + simpl. lia.
  - change (UsersManager.update api (JObj fields) w)
      with (async (p <- _update api (get_prop (JObj fields) "userId")
                          (get_prop (JObj fields) "about")
                          (get_prop (JObj fields) "name") ;;
                   await p) w).
    unfold _update.
    destruct (isValidUuid4 (get_prop (JObj fields) "userId"));
      simpl negb; cbv iota.
    + rewrite call_and_await. simpl. rewrite length_app. reflexivity.
    + simpl. lia.
Qed.

(** X3. [delete] never resolves with anything but [null]: when its
    promise is fulfilled, the value is [null], the identifier was valid
    and the collaborator's [deleteUser] promise was fulfilled. *)
Theorem delete_fulfils_only_with_null :
  forall (St : Type) (apiClient : ApiClient St) (userId v : JsVal)
         (w : World St),
    fst (UsersManager.delete apiClient userId w) = Normal (Fulfilled v) ->
    v = JNull
    /\ isValidUuid4 userId = true
    /\ exists answer,
         fst (deleteUser apiClient userId (client w))
         = Returned (Fulfilled answer).
Proof.
  intros St api userId v w H.
  unfold UsersManager.delete, _delete in H.
  destruct (isValidUuid4 userId); simpl negb in H; cbv iota in H.
  - rewrite (call_then_await api (DeleteUser userId) (fun _ => ret JNull)
               (fun _ => Fulfilled JNull)) in H by reflexivity.
    simpl in H.
    destruct (fst (deleteUser api userId (client w))) as [[answer|e|]|e];
      simpl in H; try discriminate.
    injection H as <-. repeat split. exists answer. reflexivity.
  - discriminate.
Qed.

Lemma delete_fulfils_only_with_null_witness :
  JNull = JNull
  /\ isValidUuid4 sample_id = true
  /\ exists answer,
       fst (deleteUser okClient sample_id (client world0))
       = Returned (Fulfilled answer).
Proof.
  exact (delete_fulfils_only_with_null nat okClient sample_id JNull world0
           eq_refl).
Defined.

(** X4. [update] forwards the identifier and exactly the two fields
    [about] and [name] of its argument, whatever they are (a missing one
    as [undefined]); any other key of the argument is left behind.  The
    promise is the collaborator's own. *)
Theorem update_forwards_only_about_and_name :
  forall (St : Type) (apiClient : ApiClient St)
         (fields : list (string * JsVal)) (w : World St),
    let userId := get_prop (JObj fields) "userId" in
    let request := JObj [("about", get_prop (JObj fields) "about");
                         ("name", get_prop (JObj fields) "name")] in
    let reply := fst (updateUser apiClient userId request (client w)) in
    let run := UsersManager.update apiClient (JObj fields) w in
    isValidUuid4 userId = true ->
    fst run = Normal (match reply with
                      | Returned p => p
                      | Thrown e => Rejected e
                      end)
    /\ trace (snd run) = trace w ++ [(UpdateUser userId request, reply)].
Proof.
  intros St api fields w userId request reply run Hid. subst run.
  change (UsersManager.update api (JObj fields) w)
    with (async (p <- _update api userId (get_prop (JObj fields) "about")
                        (get_prop (JObj fields) "name") ;;
                 await p) w).
  unfold _update. rewrite Hid. simpl negb. cbv iota.
  rewrite call_and_await, settle_fulfilled. simpl. auto.
Qed.

Lemma update_forwards_only_about_and_name_witness :
  trace (snd (UsersManager.update okClient
                (JObj [("role", JStr "admin"); ("userId", sample_id);
                       ("name", JStr "Ada")]) world0))
  = [(UpdateUser sample_id
        (JObj [("about", JUndefined); ("name", JStr "Ada")]),
      Returned (Fulfilled
        (JObj [("id", sample_id);
               ("request",
                JObj [("about", JUndefined); ("name", JStr "Ada")])])))].
Proof.
  exact (proj2 (update_forwards_only_about_and_name nat okClient
    [("role", JStr "admin"); ("userId", sample_id); ("name", JStr "Ada")]
    world0 eq_refl)).
Defined.

(** X5. [list] forwards the bounds it is given as they are.  Any value
    other than [undefined] is passed on, [null] and values that are not
    numbers included: the defaults do not replace them and nothing checks
    them. *)
Theorem list_forwards_given_bounds :
  forall (St : Type) (apiClient : ApiClient St)
         (fields : list (string * JsVal)) (limit offset : JsVal)
         (w : World St),
    lookup "limit" fields = Some limit ->
    lookup "offset" fields = Some offset ->
    limit <> JUndefined ->
    offset <> JUndefined ->
    trace (snd (UsersManager.list apiClient (JObj fields) w))
    = trace w ++ [(ListUsers limit offset,
                   fst (listUsers apiClient limit offset (client w)))].
Proof.
  intros St api fields limit offset w Hl Ho Hlu Hou.
  change (UsersManager.list api (JObj fields) w)
    with (async (p <- _listItems api
                        (default_to (get_prop (JObj fields) "limit") (JNum 100))
                        (default_to (get_prop (JObj fields) "offset") (JNum 0)) ;;
                 response <- await p ;;
                 get_member response "items") w).
  simpl get_prop. rewrite Hl, Ho.
  replace (default_to limit (JNum 100)) with limit
    by (destruct limit; try reflexivity; contradiction).
  replace (default_to offset (JNum 0)) with offset
    by (destruct offset; try reflexivity; contradiction).
  unfold _listItems.
  rewrite (call_then_await api (ListUsers limit offset)
             (fun response => get_member response "items")
             (fun response =>
                match response with
                | JUndefined | JNull => Rejected JTypeError
                | _ => Fulfilled (get_prop response "items")
                end))
    by (intros v w1; destruct v; reflexivity).
  reflexivity.
Qed.

Lemma list_forwards_given_bounds_witness :
  trace (snd (UsersManager.list okClient
                (JObj [("limit", JNull); ("offset", JStr "ten")]) world0))
  = [(ListUsers JNull (JStr "ten"),
      fst (listUsers okClient JNull (JStr "ten") 0%nat))].
Proof.
  refine (list_forwards_given_bounds nat okClient
            [("limit", JNull); ("offset", JStr "ten")] JNull (JStr "ten")
            world0 eq_refl eq_refl _ _); discriminate.
Defined.

(** X6. An argument object that says nothing about the bounds, by
    leaving both keys out or by setting them to [undefined], makes
    [list] behave as a call without argument; its other keys are not
    looked at. *)
Theorem list_without_bounds_is_plain_list :
  forall (St : Type) (apiClient : ApiClient St)
         (fields : list (string * JsVal)) (w : World St),
    get_prop (JObj fields) "limit" = JUndefined ->
    get_prop (JObj fields) "offset" = JUndefined ->
    UsersManager.list apiClient (JObj fields) w
    = UsersManager.list apiClient JUndefined w.
Proof.
  intros St api fields w Hl Ho.
  change (UsersManager.list api (JObj fields) w)
    with (async (p <- _listItems api
                        (default_to (get_prop (JObj fields) "limit") (JNum 100))
                        (default_to (get_prop (JObj fields) "offset") (JNum 0)) ;;
                 response <- await p ;;
                 get_member response "items") w).
  rewrite Hl, Ho. reflexivity.
Qed.

Lemma list_without_bounds_is_plain_list_witness :
  UsersManager.list okClient
    (JObj [("page", JNum 3); ("limit", JUndefined)]) world0
  = UsersManager.list okClient JUndefined world0.
Proof.
  exact (list_without_bounds_is_plain_list nat okClient
           [("page", JNum 3); ("limit", JUndefined)] world0
           eq_refl eq_refl).
Defined.

(** X7. When the collaborator's listing promise is fulfilled with [null]
    or [undefined], reading [response.items] fails: [list] is rejected
    with a [TypeError], after the one collaborator call has been made. *)
Theorem list_rejects_missing_envelope :
  forall (St : Type) (apiClient : ApiClient St)
         (arg envelope : JsVal) (w : World St),
    let limit := default_to (get_prop arg "limit") (JNum 100) in
    let offset := default_to (get_prop arg "offset") (JNum 0) in
    let run := UsersManager.list apiClient arg w in
    arg <> JNull ->
    fst (listUsers apiClient limit offset (client w))
    = Returned (Fulfilled envelope) ->
    envelope = JNull \/ envelope = JUndefined ->
    fst run = Normal (Rejected JTypeError)
    /\ trace (snd run)
       = trace w ++ [(ListUsers limit offset, Returned (Fulfilled envelope))].
Proof.
  intros St api arg envelope w limit offset run Harg Hreply Henv.
  subst run.
  assert (Hrun : UsersManager.list api arg w
                 = async (p <- _listItems api limit offset ;;
                          response <- await p ;;
                          get_member response "items") w).
  { destruct arg; try reflexivity. contradiction. }
  rewrite Hrun. unfold _listItems.
  rewrite (call_then_await api (ListUsers limit offset)
             (fun response => get_member response "items")
             (fun response =>
                match response with
                | JUndefined | JNull => Rejected JTypeError
                | _ => Fulfilled (get_prop response "items")
                end))
    by (intros v w1; destruct v; reflexivity).
  simpl. rewrite Hreply. simpl.
  destruct Henv as [-> | ->]; split; reflexivity.
Qed.

Lemma list_rejects_missing_envelope_witness :
  fst (UsersManager.list (constClient JNull) JUndefined world0)
  = Normal (Rejected JTypeError)
  /\ trace (snd (UsersManager.list (constClient JNull) JUndefined world0))
     = [(ListUsers (JNum 100) (JNum 0), Returned (Fulfilled JNull))].
Proof.
  refine (list_rejects_missing_envelope nat (constClient JNull)
            JUndefined JNull world0 _ eq_refl (or_introl eq_refl)).
  discriminate.
Defined.

(** X8. When the envelope is an object without an [items] key, [list]
    resolves with [undefined]: a missing key is no error. *)
Theorem list_without_items_resolves_undefined :
  forall (St : Type) (apiClient : ApiClient St)
         (envelope : list (string * JsVal)) (st' : St) (w : World St),
    listUsers apiClient (JNum 100) (JNum 0) (client w)
    = (Returned (Fulfilled (JObj envelope)), st') ->
    lookup "items" envelope = None ->
    fst (UsersManager.list apiClient JUndefined w)
    = Normal (Fulfilled JUndefined).
Proof.
  intros St api envelope st' w Hreply Hitems.
  unfold_methods. simpl. rewrite Hreply. simpl. rewrite Hitems. reflexivity.
Qed.

Lemma list_without_items_resolves_undefined_witness :
  fst (UsersManager.list
         (constClient (JObj [("limit", JNum 100); ("offset", JNum 0)]))
         JUndefined world0)
  = Normal (Fulfilled JUndefined).
Proof.
  exact (list_without_items_resolves_undefined nat
           (constClient (JObj [("limit", JNum 100); ("offset", JNum 0)]))
           [("limit", JNum 100); ("offset", JNum 0)] 1%nat world0
           eq_refl eq_refl).
Defined.

(** X9. The argument object itself.  [null] is never replaced by a
    default: [create], [list] and [update] are rejected with a
    [TypeError] and leave the collaborator alone.  A missing argument is
    the empty object for [list] and [update], which declare that default,
    and a [TypeError] for [create], which does not. *)
Theorem argument_object_null_or_missing :
  forall (St : Type) (apiClient : ApiClient St)
         (CreateDoc : JsVal -> Result JsVal) (w : World St),
    (UsersManager.create apiClient CreateDoc JNull w
     = (Normal (Rejected JTypeError), w)
     /\ UsersManager.list apiClient JNull w
        = (Normal (Rejected JTypeError), w)
     /\ UsersManager.update apiClient JNull w
        = (Normal (Rejected JTypeError), w))
    /\ (UsersManager.create apiClient CreateDoc JUndefined w
        = (Normal (Rejected JTypeError), w)
        /\ UsersManager.list apiClient JUndefined w
           = UsersManager.list apiClient (JObj []) w
        /\ UsersManager.update apiClient JUndefined w
           = UsersManager.update apiClient (JObj []) w).
Proof.
  intros St api CreateDoc w. repeat split.
Qed.

(** X10. When [CreateDoc] refuses one of the documents, [create] is
    rejected with the error of the first document refused, and
    [createUser] is not invoked: the world is left as it was. *)
Theorem create_rejects_on_first_refused_doc :
  forall (St : Type) (apiClient : ApiClient St)
         (CreateDoc : JsVal -> Result JsVal)
         (fields : list (string * JsVal))
         (before : list JsVal) (doc : JsVal) (after : list JsVal)
         (e : JsVal) (w : World St),
    lookup "docs" fields = Some (JArr (before ++ doc :: after)) ->
    Forall (fun d => exists p, CreateDoc d = Returned p) before ->
    CreateDoc doc = Thrown e ->
    UsersManager.create apiClient CreateDoc (JObj fields) w
    = (Normal (Rejected e), w).
Proof.
  intros St api CreateDoc fields before doc after e w Hdocs Hbefore Hdoc.
  assert (Hget : get_prop (JObj fields) "docs" = JArr (before ++ doc :: after))
    by (simpl; rewrite Hdocs; reflexivity).
  change (UsersManager.create api CreateDoc (JObj fields) w)
    with (async (p <- _create api CreateDoc (get_prop (JObj fields) "name")
                        (get_prop (JObj fields) "about")
                        (default_to (get_prop (JObj fields) "docs") (JArr [])) ;;
                 await p) w).
  rewrite Hget. unfold_methods. cbn [default_to].
  change (map_result (fun d => CreateDoc d) (before ++ doc :: after))
    with (map_result CreateDoc (before ++ doc :: after)).
  rewrite (map_result_first_throw CreateDoc before doc after e Hbefore Hdoc).
  reflexivity.
Qed.

Lemma create_rejects_on_first_refused_doc_witness :
  UsersManager.create okClient strictDoc
    (JObj [("name", JStr "Ada");
           ("docs", JArr [JObj [("title", JStr "d1")]; JStr "d2"; JNum 3])])
    world0
  = (Normal (Rejected not_a_document), world0).
Proof.
  refine (create_rejects_on_first_refused_doc nat okClient strictDoc
            [("name", JStr "Ada");
             ("docs", JArr [JObj [("title", JStr "d1")]; JStr "d2"; JNum 3])]
            [JObj [("title", JStr "d1")]] (JStr "d2") [JNum 3]
            not_a_document world0 eq_refl _ eq_refl).
  repeat constructor. eexists. reflexivity.
Defined.

(** X11. Every call of a public method returns a promise (it never
    throws to its caller), reaches the collaborator at most once and
    suspends at an [await] at most once.  Either the world is left as it
    was, or exactly one call was logged: one of the method's own
    collaborator operation, with the answer the collaborator gave and the
    state it left. *)
Theorem each_method_calls_at_most_once :
  forall (St : Type) (apiClient : ApiClient St)
         (CreateDoc : JsVal -> Result JsVal) (op : Operation) (w : World St),
    let run := perform apiClient CreateDoc op w in
    (exists p, fst run = Normal p)
    /\ (awaits w <= awaits (snd run) <= S (awaits w))%nat
    /\ (snd run = w
        \/ exists c reply,
             trace (snd run) = trace w ++ [(c, reply)]
             /\ delegates_to op c = true
             /\ dispatch apiClient c (client w) = (reply, client (snd run))).
Proof.
  intros St api CreateDoc op w run. subst run.
  destruct (perform_run_shape api CreateDoc op w) as [p|c k Hd]; simpl.
  - split; [exists p; reflexivity|]. split; [lia|]. left. reflexivity.
  - split; [eexists; reflexivity|]. split.
    + destruct (fst (dispatch api c (client w))); lia.
    + right. exists c, (fst (dispatch api c (client w))).
      repeat split; [assumption|].
      destruct (dispatch api c (client w)); reflexivity.
Qed.

(** X12. For a valid identifier, the promise each of the three guarded
    base methods returns settles exactly as the promise the collaborator
    returned: [.catch((error) => Promise.reject(error))] makes a new
    promise that is fulfilled with the same value, rejected with the same
    reason, or never settled, as the collaborator's is.  When the
    collaborator call throws, the base method throws the same error. *)
Theorem guarded_base_methods_settle_as_collaborator :
  forall (St : Type) (apiClient : ApiClient St) (id about name : JsVal)
         (w : World St),
    isValidUuid4 id = true ->
    let answer := fun reply : Reply =>
                    match reply with
                    | Returned p => Normal p
                    | Thrown e => Throw e
                    end in
    fst (_get apiClient id w) = answer (fst (getUser apiClient id (client w)))
    /\ fst (_delete apiClient id w)
       = answer (fst (deleteUser apiClient id (client w)))
    /\ fst (_update apiClient id about name w)
       = answer (fst (updateUser apiClient id
                        (JObj [("about", about); ("name", name)]) (client w))).
Proof.
  intros St api id about name w Hid answer. subst answer.
  unfold _get, _delete, _update. rewrite Hid. cbn [negb]. cbv beta iota.
  unfold bind. rewrite !invoke_eq. simpl dispatch.
  repeat split.
  - destruct (fst (getUser api id (client w))) as [p|e]; simpl;
      [rewrite catch_reject|]; reflexivity.
  - destruct (fst (deleteUser api id (client w))) as [p|e]; simpl;
      [rewrite catch_reject|]; reflexivity.
  - destruct (fst (updateUser api id _ (client w))) as [p|e]; simpl;
      [rewrite catch_reject|]; reflexivity.
Qed.

Lemma guarded_base_methods_settle_as_collaborator_witness :
  fst (_get downClient sample_id world0) = Normal (Rejected network_down)
  /\ fst (_delete downClient sample_id world0) = Throw network_down.
Proof.
  pose proof (guarded_base_methods_settle_as_collaborator nat downClient
                sample_id JUndefined JUndefined world0 eq_refl) as H.
  split; apply H.
Defined.

(** X13. What the public layer adds to the base layer.  [get] settles as
    the promise [_get] returned and is rejected with what [_get] threw;
    [delete] does the same except that a fulfilled promise becomes [null].
    Neither makes a collaborator call of its own: log and collaborator
    state are the ones the base method left. *)
Theorem facade_adds_no_call :
  forall (St : Type) (apiClient : ApiClient St) (id : JsVal) (w : World St),
    (fst (UsersManager.get apiClient id w)
     = Normal (match fst (_get apiClient id w) with
               | Normal p => p
               | Throw e => Rejected e
               | Suspended => Pending
               end)
     /\ trace (snd (UsersManager.get apiClient id w))
        = trace (snd (_get apiClient id w))
     /\ client (snd (UsersManager.get apiClient id w))
        = client (snd (_get apiClient id w)))
    /\ (fst (UsersManager.delete apiClient id w)
        = Normal (match fst (_delete apiClient id w) with
                  | Normal (Fulfilled _) => Fulfilled JNull
                  | Normal p => p
                  | Throw e => Rejected e
                  | Suspended => Pending
                  end)
        /\ trace (snd (UsersManager.delete apiClient id w))
           = trace (snd (_delete apiClient id w))
        /\ client (snd (UsersManager.delete apiClient id w))
           = client (snd (_delete apiClient id w))).
Proof.
  intros St api id w. split.
  - unfold UsersManager.get. rewrite async_bind.
    destruct (_get api id w) as [[[v|e|]|e|] w']; simpl; auto.
  - unfold UsersManager.delete. rewrite async_bind.
    destruct (_delete api id w) as [[[v|e|]|e|] w']; simpl; auto.
Qed.
